(** * luada: [tasks.py], the invoke task file that builds LuaJIT

    A shallow embedding of the three functions of [tasks.py]
    ([get_cmake], [commandline] and the task [build]) and the properties
    its specification states about them.

    The script only talks to its host: it reads [platform.system()] and
    [os.environ], asks [pathlib] whether paths exist, and runs one command
    through an [invoke] context.  The host is an explicit record here, the
    effects are threaded through a small state-and-exception monad, and every
    effectful call leaves an event in a log, so that "before", "without
    touching" and "no subprocess" are statements about that log. *)

From Stdlib Require Import Ascii String ZArith List Lia.
From stdpp Require Import base gmap strings list.
Import ListNotations.

Local Open Scope Z_scope.

(** ** Characters the source spells with escapes *)

Definition DQUOTE : ascii := "034"%char.
Definition SEMICOLON : ascii := ";"%char.
Definition SPACE : ascii := " "%char.
Definition CR : ascii := "013"%char.
Definition LF : ascii := "010"%char.

(** ** The pieces of Python's [str] the script uses *)

Module PyStr.

(** [c in s] for a one-character needle [c]. *)
Fixpoint contains (c : ascii) (s : string) : bool :=
  match s with
  | EmptyString => false
  | String a s' => if decide (a = c) then true else contains c s'
  end.

(** [sep.join(xs)]. *)
Fixpoint join (sep : string) (xs : list string) : string :=
  match xs with
  | [] => ""
  | x :: xs' =>
      match xs' with
      | [] => x
      | _ :: _ => x +:+ sep +:+ join sep xs'
      end
  end.

(** [s.split(sep)] for a one-character separator: never the empty list, and
    an empty field wherever two separators meet or the string starts or ends
    with one. *)
Fixpoint split (sep : ascii) (s : string) : list string :=
  match s with
  | EmptyString => [""]
  | String a s' =>
      if decide (a = sep) then "" :: split sep s'
      else match split sep s' with
           | [] => [String a ""]
           | w :: ws => String a w :: ws
           end
  end.

(** Truthiness of a string, as in [if p:]. *)
Definition truthy (s : string) : bool :=
  match s with
  | EmptyString => false
  | String _ _ => true
  end.

(** [f'"{s}"']. *)
Definition quoted (s : string) : string :=
  String DQUOTE s +:+ String DQUOTE "".

End PyStr.

(** ** [pathlib]

    [pathlib] is a library, not code of this repository: the script uses a
    path only through its constructor, the [/] operator and [str], and asks
    the file system whether it exists.  The first three are an interface
    here; the theorems hold for every implementation of it. *)

Class PathLib := {
  Path : Type;
  mkPath : string -> Path;        (* pathlib.Path(s) *)
  pdiv : Path -> string -> Path;  (* p / name *)
  pstr : Path -> string           (* str(p) *)
}.

(** A plain implementation over strings, for the examples. *)
Definition StrPath : PathLib := {|
  Path := string;
  mkPath := fun s => s;
  pdiv := fun p name => p +:+ "\" +:+ name;
  pstr := fun p => p
|}.
Canonical StrPath.

(** ** Exceptions, events and the host *)

(** The exceptions the script raises itself ([NotImplementedError],
    [FileNotFoundError], [Exception]) and the two it lets through:
    [KeyError] from [os.environ[...]] and invoke's [UnexpectedExit], which
    [c.run] raises on a non-zero exit code. *)
Inductive exn : Type :=
| NotImplementedError
| FileNotFoundError (msg : string)
| KeyError (key : string)
| Exception (msg : string)
| UnexpectedExit (code : Z).

(** The three kinds of error of the specification's taxonomy, and the kind
    of each exception: [get_cmake] raises [NotImplementedError] for an
    unsupported platform and [FileNotFoundError] for a tool it cannot find,
    [build] raises [Exception] for the missing prerequisite; the other two
    exceptions have no kind. *)
Inductive error_kind : Type :=
| UnsupportedPlatform
| ToolNotFound
| MissingPrerequisite.

Definition kind_of (e : exn) : option error_kind :=
  match e with
  | NotImplementedError => Some UnsupportedPlatform
  | FileNotFoundError _ => Some ToolNotFound
  | Exception _ => Some MissingPrerequisite
  | KeyError _ | UnexpectedExit _ => None
  end.

(** The four places of the source that call [.exists()]. *)
Inductive probe : Type :=
| AtPathEntry   (* [p.exists()] on an entry of PATH *)
| AtPathCmake   (* [cmake.exists()] on [p / 'cmake.exe'] *)
| AtFallback    (* [cmake.exists()] on the CMake installation path *)
| AtVcvars.     (* [VCVARS_BAT.exists()] *)

Section Script.
Context {PL : PathLib}.

Inductive event : Type :=
| EvEnviron (key : string)                     (* os.environ[key] *)
| EvExists (site : probe) (p : Path)           (* p.exists() *)
| EvCdEnter (dir : string)                     (* entering [with c.cd(dir)] *)
| EvCdExit                                     (* leaving it *)
| EvRun (cwd : string) (command in_stream : string).  (* c.run(command, in_stream=...) *)

(** What the script can observe of the machine it runs on.  [run_exit] is
    the exit code of a command run by [c.run] in a directory on an input
    stream. *)
Record Host : Type := {
  platform_system : string;          (* platform.system() *)
  environ : gmap string string;      (* os.environ *)
  path_exists : Path -> bool;        (* Path.exists *)
  HERE : Path;                       (* pathlib.Path(__file__).absolute().parent *)
  run_exit : string -> string -> string -> Z
}.

(** The state the script changes: the directory stack of the invoke context
    [c] ([Context.command_cwds]; the head of the list is the innermost
    [cd]) and the log of events so far, oldest first. *)
Record State : Type := {
  command_cwds : list string;
  log : list event
}.

Inductive outcome (A : Type) : Type :=
| Return (a : A)
| Raise (e : exn).
#[global] Arguments Return {A} a.
#[global] Arguments Raise {A} e.

Definition M (A : Type) : Type := State -> outcome A * State.

Definition ret {A : Type} (a : A) : M A := fun s => (Return a, s).

Definition raise {A : Type} (e : exn) : M A := fun s => (Raise e, s).

Definition bind {A B : Type} (m : M A) (k : A -> M B) : M B :=
  fun s =>
    match m s with
    | (Return a, s') => k a s'
    | (Raise e, s') => (Raise e, s')
    end.

Definition emit (e : event) : M unit :=
  fun s => (Return tt, {| command_cwds := command_cwds s; log := log s ++ [e] |}).

End Script.

Notation "'let*' x ':=' c1 'in' c2" := (bind c1 (fun x => c2))
  (at level 10, x name, c1 at level 100, c2 at level 200).

(** ** The calls into the host *)

Section Tasks.
Context {PL : PathLib}.
Variable h : Host.

(** [os.environ[key]]: a [KeyError] when the variable is not set. *)
Definition environ_get (key : string) : M string :=
  let* _ := emit (EvEnviron key) in
  match environ h !! key with
  | Some v => ret v
  | None => raise (KeyError key)
  end.

(** [p.exists()], called at the place [site] of the source. *)
Definition exists_ (site : probe) (p : Path) : M bool :=
  let* _ := emit (EvExists site p) in
  ret (path_exists h p).

(** invoke's [Context.cwd]: the directory commands run in, the empty string
    outside every [cd].  The script only enters an absolute directory, so the
    innermost [cd] decides. *)
Definition cwd (s : State) : string :=
  match command_cwds s with
  | [] => ""
  | dir :: _ => dir
  end.

(** [with c.cd(path): body].  invoke's [cd] is a context manager that
    appends [str(path)] to [command_cwds], yields, and pops in a [finally]
    clause: the pop runs whether [body] returns or raises. *)
Definition with_cd {A : Type} (path : Path) (body : M A) : M A :=
  fun s =>
    let entered :=
      {| command_cwds := pstr path :: command_cwds s;
         log := log s ++ [EvCdEnter (pstr path)] |} in
    match body entered with
    | (r, s') =>
        (r, {| command_cwds := tail (command_cwds s');
               log := log s' ++ [EvCdExit] |})
    end.

(** [c.run(command, in_stream=...)] with invoke's defaults ([warn=False]):
    the command runs in [c.cwd]; a non-zero exit code raises
    [UnexpectedExit], otherwise the result (here its exit code) is
    returned. *)
Definition run (command in_stream : string) : M Z :=
  fun s =>
    let dir := cwd s in
    let s' := {| command_cwds := command_cwds s;
                 log := log s ++ [EvRun dir command in_stream] |} in
    let code := run_exit h dir command in_stream in
    if code =? 0 then (Return code, s') else (Raise (UnexpectedExit code), s').

(** ** The module constants *)

Definition LUAJIT_DIR : Path := pdiv (HERE h) "LuaJIT/src".

Definition LUA_BIN : Path := pdiv LUAJIT_DIR "luajit.exe".

Definition VCVARS_BAT : Path :=
  mkPath "C:\Program Files (x86)\Microsoft Visual Studio\2019\BuildTools\VC\Auxiliary\Build\vcvars64.bat".

Definition CMAKE_FALLBACK : Path :=
  mkPath "C:/Program Files/CMake/bin/cmake.exe".

(** ** [get_cmake] *)

(** The [for p in ...] loop; [Some cmake] is its [return cmake], [None] is
    the loop running to its end. *)
Fixpoint scan_path (entries : list string) : M (option Path) :=
  match entries with
  | [] => ret None
  | p :: rest =>
      if PyStr.truthy p then
        let p := mkPath p in
        let* dir_there := exists_ AtPathEntry p in
        if dir_there then
          let cmake := pdiv p "cmake.exe" in
          let* cmake_there := exists_ AtPathCmake cmake in
          if cmake_there then ret (Some cmake) else scan_path rest
        else scan_path rest
      else scan_path rest
  end.

Definition get_cmake : M Path :=
  if decide (platform_system h = "Windows") then
    let* path := environ_get "PATH" in
    let* found := scan_path (PyStr.split SEMICOLON path) in
    match found with
    | Some cmake => ret cmake
    | None =>
        let cmake := CMAKE_FALLBACK in
        let* there := exists_ AtFallback cmake in
        if there then ret cmake
        else raise (FileNotFoundError "cmake.exe")
    end
  else raise NotImplementedError.

(** ** [commandline] *)

Definition commandline (exe : Path) (args : list string) : string :=
  let cmd := pstr exe in
  let cmd := if PyStr.contains SPACE cmd then PyStr.quoted cmd else cmd in
  cmd +:+ " " +:+ PyStr.join " " args.

(** ** [build] *)

(** The text of the [io.StringIO] passed as [in_stream], character for
    character as the source has it between the double quotes. *)
Definition IN_STREAM : string :=
  "msvcbuild.bat" +:+ String CR (String LF "exit") +:+ String CR (String LF "')").

Definition build : M unit :=
  let* there := exists_ AtVcvars VCVARS_BAT in
  if negb there then raise (Exception "no vcvars64.bat")
  else
    with_cd LUAJIT_DIR
      (let* comspec := environ_get "COMSPEC" in
       let* _ := run (comspec +:+ " /K " +:+ PyStr.quoted (pstr VCVARS_BAT)) IN_STREAM in
       ret tt).

End Tasks.

(** ** Reading a log *)

#[global] Instance probe_eq_dec : EqDecision probe.
Proof. solve_decision. Defined.

Section Logs.
Context {PL : PathLib}.

(** The number of subprocesses a stretch of log spawned. *)
Fixpoint spawned (evs : list event) : nat :=
  match evs with
  | [] => 0%nat
  | EvRun _ _ _ :: rest => S (spawned rest)
  | _ :: rest => spawned rest
  end.

(** Was [os.environ[key]] read? *)
Fixpoint reads_environ (key : string) (evs : list event) : bool :=
  match evs with
  | [] => false
  | EvEnviron k :: rest => bool_decide (k = key) || reads_environ key rest
  | _ :: rest => reads_environ key rest
  end.

(** Was [.exists()] called at the place [site]? *)
Fixpoint probed (site : probe) (evs : list event) : bool :=
  match evs with
  | [] => false
  | EvExists s _ :: rest => bool_decide (s = site) || probed site rest
  | _ :: rest => probed site rest
  end.

(** Was [.exists()] called at all? *)
Definition touches_filesystem (evs : list event) : bool :=
  existsb (fun e => match e with EvExists _ _ => true | _ => false end) evs.

(** The input streams handed to subprocesses, in order. *)
Fixpoint in_streams (evs : list event) : list string :=
  match evs with
  | [] => []
  | EvRun _ _ input :: rest => input :: in_streams rest
  | _ :: rest => in_streams rest
  end.


(** The command line [build] hands to [c.run] when COMSPEC is [shell]. *)
Definition build_command (shell : string) : string :=
  shell +:+ " /K " +:+ PyStr.quoted (pstr VCVARS_BAT).

(** "The directory [entry] of the search path contains the build tool": the
    entry names a directory, the directory exists, and [cmake.exe] exists
    in it. *)
Definition holds_cmake (h : Host) (entry : string) : bool :=
  PyStr.truthy entry
  && path_exists h (mkPath entry)
  && path_exists h (pdiv (mkPath entry) "cmake.exe").

End Logs.

(** ** The events of a lookup *)

Section Lookups.
Context {PL : PathLib}.
Variable h : Host.

(** What a scan of [entries] may leave in the log: a probe of the directory
    a non-empty entry names, or a probe of [cmake.exe] in such a directory
    that exists. *)
Definition scan_event (entries : list string) (ev : event) : Prop :=
  match ev with
  | EvExists AtPathEntry p =>
      exists e, In e entries /\ e <> "" /\ p = mkPath e
  | EvExists AtPathCmake p =>
      exists e, In e entries /\ e <> ""
                /\ path_exists h (mkPath e) = true
                /\ p = pdiv (mkPath e) "cmake.exe"
  | _ => False
  end.

(** What a scan may answer: the [cmake.exe] of an entry that holds the
    tool, or nothing when no entry holds it; it never raises. *)
Definition scan_answer (entries : list string) (r : outcome (option Path)) : Prop :=
  match r with
  | Return (Some cmake) =>
      exists e, In e entries /\ holds_cmake h e = true
                /\ cmake = pdiv (mkPath e) "cmake.exe"
  | Return None => Forall (fun e => holds_cmake h e = false) entries
  | Raise _ => False
  end.

(** What [get_cmake] may leave in the log: the read of PATH, the events of
    the scan of its entries, and the probe of the fallback path. *)
Definition lookup_event (ev : event) : Prop :=
  match ev with
  | EvEnviron key => key = "PATH"
  | EvExists AtFallback p => p = CMAKE_FALLBACK
  | EvExists AtVcvars _ => False
  | EvExists _ _ =>
      exists path, environ h !! "PATH" = Some path
                   /\ scan_event (PyStr.split SEMICOLON path) ev
  | EvCdEnter _ | EvCdExit | EvRun _ _ _ => False
  end.

End Lookups.

(** ** Re-parsing a command line

    The specification's reading of a command line, in its words: simple
    whitespace splitting that respects the quoting [commandline] adds.  A
    word starts at the first character that is not whitespace; a word that
    starts with a double quote runs to the next double quote and loses both,
    any other word runs to the next whitespace.  Whitespace is Python's
    [string.whitespace]. *)

Module Reparse.

Inductive mode : Type :=
| Between                 (* skipping whitespace *)
| InWord (w : string)     (* inside a bare word, [w] read so far *)
| InQuotes (w : string).  (* inside a quoted word *)

Definition snoc (w : string) (c : ascii) : string := w +:+ String c "".

Fixpoint words (m : mode) (s : string) : list string :=
  match s with
  | EmptyString =>
      match m with
      | Between => []
      | InWord w | InQuotes w => [w]
      end
  | String c s' =>
      match m with
      | Between =>
          if Ascii.is_space c then words Between s'
          else if decide (c = DQUOTE) then words (InQuotes "") s'
          else words (InWord (String c "")) s'
      | InWord w =>
          if Ascii.is_space c then w :: words Between s'
          else words (InWord (snoc w c)) s'
      | InQuotes w =>
          if decide (c = DQUOTE) then w :: words Between s'
          else words (InQuotes (snoc w c)) s'
      end
  end.

(** The executable and the arguments of a command line; [None] when the
    line holds no word. *)
Definition reparse (line : string) : option (string * list string) :=
  match words Between line with
  | [] => None
  | exe :: args => Some (exe, args)
  end.

(** Every character of [s] satisfies [ok]. *)
Fixpoint all_chars (ok : ascii -> bool) (s : string) : bool :=
  match s with
  | EmptyString => true
  | String c s' => ok c && all_chars ok s'
  end.

(** Neither whitespace nor a double quote. *)
Definition plain_char (c : ascii) : bool :=
  negb (Ascii.is_space c) && negb (bool_decide (c = DQUOTE)).

(** A plain character or a space. *)
Definition exe_char (c : ascii) : bool :=
  bool_decide (c = SPACE) || plain_char c.

End Reparse.

(** The two lines the specification expects on the subprocess's input:
    run the vendor's batch file, then leave the shell. *)
Definition BUILD_THEN_EXIT : string :=
  "msvcbuild.bat" +:+ String CR (String LF "exit") +:+ String CR (String LF "").

(** ** Hosts for the examples *)

(** A host over [StrPath]: a platform name, an environment, the paths that
    exist, and the exit code every command ends with.  The script lives in
    [C:\work\luada]. *)
Definition mk_host (system : string) (env : list (string * string))
    (files : list string) (code : Z) : Host (PL := StrPath) := {|
  platform_system := system;
  environ := list_to_map env;
  path_exists := fun p => bool_decide (p ∈ files);
  HERE := "C:\work\luada";
  run_exit := fun _ _ _ => code
|}.

Definition VCVARS : string :=
  "C:\Program Files (x86)\Microsoft Visual Studio\2019\BuildTools\VC\Auxiliary\Build\vcvars64.bat".

Definition CMD_EXE : string := "C:\Windows\system32\cmd.exe".

(** A Windows developer machine: CMake in the third entry of PATH (the second
    is empty), the compiler-environment script installed, builds succeed. *)
Definition host_dev : Host (PL := StrPath) :=
  mk_host "Windows"
    [("PATH", "C:\Windows;;C:\tools\bin;C:\more\bin"); ("COMSPEC", CMD_EXE)]
    ["C:\Windows"; "C:\tools\bin"; "C:\tools\bin\cmake.exe";
     "C:\more\bin"; "C:\more\bin\cmake.exe"; VCVARS]
    0.

(** The same machine with a vendor build that fails. *)
Definition host_failing : Host (PL := StrPath) :=
  mk_host "Windows"
    [("PATH", "C:\Windows"); ("COMSPEC", CMD_EXE)]
    ["C:\Windows"; VCVARS]
    2.

(** A Windows machine with neither CMake nor the compiler-environment
    script. *)
Definition host_bare : Host (PL := StrPath) :=
  mk_host "Windows"
    [("PATH", "C:\Windows;C:\gone"); ("COMSPEC", CMD_EXE)]
    ["C:\Windows"]
    0.

(** A Windows machine whose environment has neither PATH nor COMSPEC. *)
Definition host_no_env : Host (PL := StrPath) :=
  mk_host "Windows" [] [VCVARS] 0.

(** A Linux machine that happens to have a [cmake.exe] on its PATH. *)
Definition host_linux : Host (PL := StrPath) :=
  mk_host "Linux"
    [("PATH", "/usr/bin")]
    ["/usr/bin"; "/usr/bin\cmake.exe"]
    0.

(** A Windows machine with CMake installed in its default place and not on
    PATH. *)
Definition host_fallback : Host (PL := StrPath) :=
  mk_host "Windows"
    [("PATH", "C:\Windows;C:\gone"); ("COMSPEC", CMD_EXE)]
    ["C:\Windows"; "C:/Program Files/CMake/bin/cmake.exe"]
    0.

(** A Windows machine whose PATH holds separators only, with a [cmake.exe]
    in the directory the empty path would name. *)
Definition host_blank_path : Host (PL := StrPath) :=
  mk_host "Windows" [("PATH", ";;")] [""; "\cmake.exe"] 0.

(** [host_dev] as another platform would report it, with another PATH. *)
Definition host_dev_elsewhere : Host (PL := StrPath) :=
  mk_host "Linux"
    [("PATH", "/usr/bin"); ("COMSPEC", CMD_EXE)]
    ["C:\Windows"; "C:\tools\bin"; "C:\tools\bin\cmake.exe";
     "C:\more\bin"; "C:\more\bin\cmake.exe"; VCVARS]
    0.

(** The state a fresh task run starts in. *)
Definition fresh : State (PL := StrPath) :=
  {| command_cwds := []; log := [] |}.

(** * Properties *)

(** ** The model on the example hosts *)

Example commandline_plain :
  commandline (PL := StrPath) "cmake" ["-S"; "."] = "cmake -S .".
Proof. reflexivity. Qed.

Example commandline_spaced :
  commandline (PL := StrPath) "C:\Program Files\CMake\bin\cmake.exe" ["--version"]
  = String DQUOTE "C:\Program Files\CMake\bin\cmake.exe" +:+ String DQUOTE " --version".
Proof. reflexivity. Qed.

Example split_keeps_empty_fields :
  PyStr.split SEMICOLON "C:\a;;C:\b;" = ["C:\a"; ""; "C:\b"; ""].
Proof. reflexivity. Qed.

Example get_cmake_on_host_dev :
  get_cmake host_dev fresh
  = (Return "C:\tools\bin\cmake.exe",
     {| command_cwds := [];
        log := [EvEnviron "PATH";
                EvExists AtPathEntry "C:\Windows";
                EvExists AtPathCmake "C:\Windows\cmake.exe";
                EvExists AtPathEntry "C:\tools\bin";
                EvExists AtPathCmake "C:\tools\bin\cmake.exe"] |}).
Proof. reflexivity. Qed.

Example get_cmake_on_host_bare :
  get_cmake host_bare fresh
  = (Raise (FileNotFoundError "cmake.exe"),
     {| command_cwds := [];
        log := [EvEnviron "PATH";
                EvExists AtPathEntry "C:\Windows";
                EvExists AtPathCmake "C:\Windows\cmake.exe";
                EvExists AtPathEntry "C:\gone";
                EvExists AtFallback "C:/Program Files/CMake/bin/cmake.exe"] |}).
Proof. reflexivity. Qed.

Example build_on_host_failing :
  build host_failing fresh
  = (Raise (UnexpectedExit 2),
     {| command_cwds := [];
        log := [EvExists AtVcvars VCVARS;
                EvCdEnter "C:\work\luada\LuaJIT/src";
                EvEnviron "COMSPEC";
                EvRun "C:\work\luada\LuaJIT/src"
                  (CMD_EXE +:+ " /K " +:+ PyStr.quoted VCVARS)
                  (BUILD_THEN_EXIT +:+ "')");
                EvCdExit] |}).
Proof. reflexivity. Qed.

Example get_cmake_on_host_no_env :
  get_cmake host_no_env fresh
  = (Raise (KeyError "PATH"), {| command_cwds := []; log := [EvEnviron "PATH"] |}).
Proof. reflexivity. Qed.

(** What the re-parse loses outside the plain case: an empty argument
    disappears, a path with a tab and no space is not quoted and splits, and
    a double quote inside a quoted path ends the quotation early. *)
Example reparse_drops_empty_argument :
  Reparse.reparse (commandline (PL := StrPath) "cmake" [""; "-S"])
  = Some ("cmake", ["-S"]).
Proof. reflexivity. Qed.

Example reparse_splits_at_tab :
  Reparse.reparse (commandline (PL := StrPath) ("C:\my" +:+ String "009" "tools\cmake") ["-S"])
  = Some ("C:\my", ["tools\cmake"; "-S"]).
Proof. reflexivity. Qed.

Example reparse_stops_at_inner_quote :
  Reparse.reparse (commandline (PL := StrPath) ("a b" +:+ String DQUOTE "c") [])
  = Some ("a b", ["c" +:+ String DQUOTE ""]).
Proof. reflexivity. Qed.

(** ** Logs and states *)

Section Facts.
Context {PL : PathLib}.
Variable h : Host.

Lemma state_eta (s : State) :
  s = {| command_cwds := command_cwds s; log := log s ++ [] |}.
Proof. destruct s as [cwds l]. simpl. now rewrite app_nil_r. Qed.

Lemma log_snoc_app (l : list event) (e : event) (evs : list event) :
  (l ++ [e]) ++ evs = l ++ e :: evs.
Proof. now rewrite <- app_assoc. Qed.

Lemma probed_app (site : probe) (evs1 evs2 : list event) :
  probed site (evs1 ++ evs2) = probed site evs1 || probed site evs2.
Proof.
  induction evs1 as [|e evs1 IH]; [reflexivity|].
  destruct e; simpl; rewrite IH; auto using orb_assoc.
Qed.

(** ** The scan of the search path *)

(** An entry that does not hold the tool is passed over: the scan goes on
    with the rest, having probed only that entry. *)
Lemma scan_path_skip (entry : string) (rest : list string) (s : State) :
  holds_cmake h entry = false ->
  exists evs,
    scan_path h (entry :: rest) s
    = scan_path h rest {| command_cwds := command_cwds s; log := log s ++ evs |}
    /\ probed AtFallback evs = false.
Proof.
  intros Hmiss. unfold holds_cmake in Hmiss. simpl.
  destruct (PyStr.truthy entry) eqn:Htruthy.
  - unfold bind, exists_, emit, ret; simpl.
    destruct (path_exists h (mkPath entry)) eqn:Hdir; simpl in *.
    + rewrite Hmiss.
      exists [EvExists AtPathEntry (mkPath entry);
              EvExists AtPathCmake (pdiv (mkPath entry) "cmake.exe")].
      rewrite log_snoc_app. split; reflexivity.
    + exists [EvExists AtPathEntry (mkPath entry)]. split; reflexivity.
  - exists []. split; [|reflexivity]. now rewrite <- state_eta.
Qed.

Lemma scan_path_miss (entries : list string) :
  Forall (fun e => holds_cmake h e = false) entries ->
  forall s, exists evs,
    scan_path h entries s
    = (Return None, {| command_cwds := command_cwds s; log := log s ++ evs |})
    /\ probed AtFallback evs = false.
Proof.
  induction 1 as [|entry rest Hmiss _ IH]; intros s.
  - exists []. split; [|reflexivity]. simpl. unfold ret. now rewrite <- state_eta.
  - destruct (scan_path_skip entry rest s Hmiss) as (evs1 & -> & Hno1).
    destruct (IH {| command_cwds := command_cwds s; log := log s ++ evs1 |})
      as (evs2 & -> & Hno2).
    exists (evs1 ++ evs2). simpl. rewrite <- app_assoc. split; [reflexivity|].
    now rewrite probed_app, Hno1, Hno2.
Qed.

Lemma scan_path_hit (pre : list string) (d : string) (post : list string) :
  Forall (fun e => holds_cmake h e = false) pre ->
  holds_cmake h d = true ->
  forall s, exists evs,
    scan_path h (pre ++ d :: post) s
    = (Return (Some (pdiv (mkPath d) "cmake.exe")),
       {| command_cwds := command_cwds s; log := log s ++ evs |})
    /\ probed AtFallback evs = false.
Proof.
  intros Hpre Hd. induction Hpre as [|entry rest Hmiss _ IH]; intros s.
  - unfold holds_cmake in Hd.
    apply andb_true_iff in Hd as [Hd Hcmake]. apply andb_true_iff in Hd as [Htruthy Hdir].
    simpl. rewrite Htruthy. unfold bind, exists_, emit, ret; simpl.
    rewrite Hdir. simpl. rewrite Hcmake.
    exists [EvExists AtPathEntry (mkPath d);
            EvExists AtPathCmake (pdiv (mkPath d) "cmake.exe")].
    rewrite log_snoc_app. split; reflexivity.
  - destruct (scan_path_skip entry (rest ++ d :: post) s Hmiss) as (evs1 & Heq & Hno1).
    destruct (IH {| command_cwds := command_cwds s; log := log s ++ evs1 |})
      as (evs2 & Heq2 & Hno2).
    exists (evs1 ++ evs2). simpl app. rewrite Heq, Heq2. simpl. rewrite <- app_assoc.
    split; [reflexivity|].
    now rewrite probed_app, Hno1, Hno2.
Qed.

(** ** [get_cmake] *)

(** With PATH unset the lookup ends in the [KeyError] of [os.environ],
    before any probe of the file system. *)
Lemma get_cmake_path_unset (s : State) :
  platform_system h = "Windows" ->
  environ h !! "PATH" = None ->
  get_cmake h s
  = (Raise (KeyError "PATH"),
     {| command_cwds := command_cwds s; log := log s ++ [EvEnviron "PATH"] |}).
Proof.
  intros Hwin Hpath. unfold get_cmake. rewrite decide_True by assumption.
  unfold bind, environ_get, emit; simpl. now rewrite Hpath.
Qed.

(** Where some entry holds the tool there is a first one. *)
Lemma first_holder (entries : list string) :
  Exists (fun e => holds_cmake h e = true) entries ->
  exists pre d post,
    entries = pre ++ d :: post
    /\ Forall (fun e => holds_cmake h e = false) pre
    /\ holds_cmake h d = true.
Proof.
  induction entries as [|e entries IH]; intros Hex; [inversion Hex|].
  destruct (holds_cmake h e) eqn:He.
  - exists [], e, entries. auto.
  - destruct IH as (pre & d & post & -> & Hpre & Hd).
    + inversion Hex as [? ? Hhd|? ? Htl]; subst; [congruence | exact Htl].
    + exists (e :: pre), d, post. auto.
Qed.

(** C5: on Windows, when some entry of PATH holds the tool, the entries
    split as [pre ++ d :: post] where [d] is the first that does (no entry
    of [pre] holds it), and [get_cmake] returns [d / 'cmake.exe'], the tool
    path in that directory, in a run that never calls [.exists()] on the
    fallback installation path. *)
Theorem get_cmake_first_on_path (s : State) (path : string) :
  platform_system h = "Windows" ->
  environ h !! "PATH" = Some path ->
  Exists (fun e => holds_cmake h e = true) (PyStr.split SEMICOLON path) ->
  exists pre d post evs,
    PyStr.split SEMICOLON path = pre ++ d :: post
    /\ Forall (fun e => holds_cmake h e = false) pre
    /\ holds_cmake h d = true
    /\ get_cmake h s
       = (Return (pdiv (mkPath d) "cmake.exe"),
          {| command_cwds := command_cwds s; log := log s ++ evs |})
    /\ probed AtFallback evs = false.
Proof.
  intros Hwin Hpath Hex.
  destruct (first_holder _ Hex) as (pre & d & post & Hsplit & Hpre & Hd).
  unfold get_cmake. rewrite decide_True by assumption.
  unfold bind at 1. unfold environ_get, bind, emit; simpl. rewrite Hpath. unfold ret at 1.
  rewrite Hsplit.
  destruct (scan_path_hit pre d post Hpre Hd
              {| command_cwds := command_cwds s; log := log s ++ [EvEnviron "PATH"] |})
    as (evs & -> & Hno).
  exists pre, d, post, (EvEnviron "PATH" :: evs). simpl. rewrite log_snoc_app.
  repeat split; assumption.
Qed.


(** C8: on every platform other than Windows [get_cmake] raises
    [NotImplementedError] at once: the state, and with it the log, is
    untouched, so no [.exists()] call (and no other host call) was made. *)
Theorem get_cmake_unsupported_platform (s : State) :
  platform_system h <> "Windows" ->
  get_cmake h s = (Raise NotImplementedError, s)
  /\ forall evs, log (snd (get_cmake h s)) = log s ++ evs ->
       touches_filesystem evs = false.
Proof.
  intros Hother. unfold get_cmake. rewrite decide_False by assumption.
  split; [reflexivity|].
  simpl. intros evs Hevs.
  rewrite <- (app_nil_r (log s)) in Hevs at 1.
  apply app_inv_head in Hevs. now subst evs.
Qed.

End Facts.

(** ** Strings *)

Lemma str_app_cons (c : ascii) (s t : string) :
  String c s +:+ t = String c (s +:+ t).
Proof. reflexivity. Qed.

Lemma str_app_nil_r (s : string) : s +:+ "" = s.
Proof. induction s as [|c s IH]; [reflexivity|]. now rewrite str_app_cons, IH. Qed.

Lemma str_app_assoc (s t u : string) : (s +:+ t) +:+ u = s +:+ (t +:+ u).
Proof. induction s as [|c s IH]; [reflexivity|]. now rewrite !str_app_cons, IH. Qed.

Lemma str_length_app (s t : string) :
  String.length (s +:+ t) = (String.length s + String.length t)%nat.
Proof. induction s as [|c s IH]; [reflexivity|]. rewrite str_app_cons. simpl. now rewrite IH. Qed.

Lemma contains_In (c : ascii) (s : string) :
  PyStr.contains c s = true <-> In c (list_ascii_of_string s).
Proof.
  induction s as [|a s IH]; simpl.
  - split; [discriminate | tauto].
  - destruct (decide (a = c)) as [->|Hne].
    + split; auto.
    + rewrite IH. split; [auto | intros [Heq|Hin]; [contradiction | exact Hin]].
Qed.

Lemma quoted_length (s : string) :
  String.length (PyStr.quoted s) = S (S (String.length s)).
Proof.
  unfold PyStr.quoted. rewrite str_length_app. simpl. lia.
Qed.

(** A string is never its own quotation followed by the same tail. *)
Lemma quoted_neq (s t : string) : PyStr.quoted s +:+ t <> s +:+ t.
Proof.
  intros Heq. apply (f_equal String.length) in Heq.
  rewrite !str_length_app, quoted_length in Heq. lia.
Qed.

Lemma quoted_app (s t : string) :
  PyStr.quoted s +:+ t = String DQUOTE (s +:+ String DQUOTE t).
Proof. unfold PyStr.quoted. now rewrite str_app_assoc. Qed.

(** ** [commandline] *)

Section CommandlineFacts.
Context {PL : PathLib}.

(** C9: [commandline] wraps the executable path in double quotes exactly
    when the path contains a space: the output is the quoted path, a space
    and the joined arguments if and only if [str(exe)] has a space, and it
    is the bare path, a space and the joined arguments if and only if it
    has none. *)
Theorem commandline_quotes_iff_space (exe : Path) (args : list string) :
  (In SPACE (list_ascii_of_string (pstr exe)) <->
     commandline exe args
     = PyStr.quoted (pstr exe) +:+ " " +:+ PyStr.join " " args)
  /\ (~ In SPACE (list_ascii_of_string (pstr exe)) <->
     commandline exe args
     = pstr exe +:+ " " +:+ PyStr.join " " args).
Proof.
  unfold commandline. rewrite <- contains_In.
  destruct (PyStr.contains SPACE (pstr exe)) eqn:Hspace; split; split;
    try reflexivity; try discriminate; try congruence.
  - intros Heq. exfalso. exact (quoted_neq _ _ Heq).
  - intros Heq. exfalso. symmetry in Heq. exact (quoted_neq _ _ Heq).
Qed.

End CommandlineFacts.

(** ** Re-parsing what [commandline] composed *)

Section ReparseFacts.
Import Reparse.

Lemma plain_char_inv (c : ascii) :
  plain_char c = true -> Ascii.is_space c = false /\ c <> DQUOTE.
Proof.
  unfold plain_char. intros [Hsp Hdq]%andb_true_iff.
  apply negb_true_iff in Hsp, Hdq. apply bool_decide_eq_false in Hdq. auto.
Qed.

(** Inside a bare word, characters that are not whitespace extend it. *)
Lemma words_in_word (u w rest : string) :
  all_chars plain_char u = true ->
  words (InWord w) (u +:+ rest) = words (InWord (w +:+ u)) rest.
Proof.
  revert w. induction u as [|c u IH]; intros w Hu.
  - now rewrite str_app_nil_r.
  - simpl in Hu. apply andb_true_iff in Hu as [Hc Hu].
    apply plain_char_inv in Hc as [Hsp _].
    rewrite str_app_cons. simpl. rewrite Hsp, (IH _ Hu).
    unfold snoc. now rewrite str_app_assoc.
Qed.

(** Inside quotes, everything up to the closing quote is the word. *)
Lemma words_in_quotes (u w rest : string) :
  PyStr.contains DQUOTE u = false ->
  words (InQuotes w) (u +:+ String DQUOTE rest) = (w +:+ u) :: words Between rest.
Proof.
  revert w. induction u as [|c u IH]; intros w Hu.
  - rewrite str_app_nil_r. change ("" +:+ String DQUOTE rest) with (String DQUOTE rest).
    simpl. now destruct (decide (DQUOTE = DQUOTE)).
  - simpl in Hu. destruct (decide (c = DQUOTE)) as [|Hne]; [discriminate|].
    rewrite str_app_cons. simpl. rewrite decide_False by assumption.
    rewrite (IH _ Hu). unfold snoc. now rewrite str_app_assoc.
Qed.

(** A space ends a bare word; between words it is skipped. *)
Lemma words_space_ends (w rest : string) :
  words (InWord w) (" " +:+ rest) = w :: words Between rest.
Proof. reflexivity. Qed.

Lemma words_space_skipped (rest : string) :
  words Between (" " +:+ rest) = words Between rest.
Proof. reflexivity. Qed.

(** A double quote between words opens a quoted word. *)
Lemma words_quote_opens (rest : string) :
  words Between (String DQUOTE rest) = words (InQuotes "") rest.
Proof. reflexivity. Qed.

(** A non-empty plain word is read whole. *)
Lemma words_bare (u rest : string) :
  u <> "" ->
  all_chars plain_char u = true ->
  words Between (u +:+ rest) = words (InWord u) rest.
Proof.
  destruct u as [|c u]; [congruence|]. intros _ Hu.
  simpl in Hu. apply andb_true_iff in Hu as [Hc Hu].
  apply plain_char_inv in Hc as [Hsp Hdq].
  rewrite str_app_cons. simpl. rewrite Hsp, decide_False by assumption.
  now rewrite (words_in_word u _ rest Hu).
Qed.

(** The joined arguments split back into the arguments. *)
Lemma words_join (args : list string) :
  Forall (fun a => a <> "" /\ all_chars plain_char a = true) args ->
  words Between (PyStr.join " " args) = args.
Proof.
  induction 1 as [|a args [Hne Ha] Hargs IH]; [reflexivity|].
  destruct args as [|b args].
  - simpl. rewrite <- (str_app_nil_r a) at 1. now rewrite words_bare.
  - change (PyStr.join " " (a :: b :: args))
      with (a +:+ " " +:+ PyStr.join " " (b :: args)).
    rewrite words_bare by assumption.
    now rewrite words_space_ends, IH.
Qed.

(** A path of [exe_char]s without a space is plain. *)
Lemma exe_chars_plain (s : string) :
  all_chars exe_char s = true ->
  PyStr.contains SPACE s = false ->
  all_chars plain_char s = true.
Proof.
  induction s as [|c s IH]; [reflexivity|]. simpl.
  intros [Hc Hs]%andb_true_iff Hspace.
  destruct (decide (c = SPACE)) as [|Hne]; [discriminate|].
  unfold exe_char in Hc. rewrite bool_decide_eq_false_2 in Hc by assumption.
  simpl in Hc. rewrite Hc. simpl. auto.
Qed.

Lemma exe_chars_unquoted (s : string) :
  all_chars exe_char s = true -> PyStr.contains DQUOTE s = false.
Proof.
  induction s as [|c s IH]; [reflexivity|]. simpl.
  intros [Hc Hs]%andb_true_iff.
  destruct (decide (c = DQUOTE)) as [->|Hne]; [discriminate Hc | auto].
Qed.

End ReparseFacts.

Section Roundtrip.
Context {PL : PathLib}.
Import Reparse.

(** C3, as the code has it: when [str(exe)] is not empty and holds no double
    quote and no whitespace other than spaces, and every argument is not
    empty and holds neither whitespace nor a double quote, the composed
    line re-parses into the same executable path and the same arguments. *)
Theorem commandline_reparse (exe : Path) (args : list string) :
  pstr exe <> "" ->
  all_chars exe_char (pstr exe) = true ->
  Forall (fun a => a <> "" /\ all_chars plain_char a = true) args ->
  reparse (commandline exe args) = Some (pstr exe, args).
Proof.
  intros Hne Hexe Hargs. unfold reparse, commandline.
  destruct (PyStr.contains SPACE (pstr exe)) eqn:Hspace.
  - rewrite quoted_app, words_quote_opens.
    rewrite words_in_quotes by now apply exe_chars_unquoted.
    change ("" +:+ pstr exe) with (pstr exe).
    now rewrite words_space_skipped, words_join.
  - rewrite words_bare by auto using exe_chars_plain.
    now rewrite words_space_ends, words_join.
Qed.

End Roundtrip.

(** ** [build] *)

Section BuildFacts.
Context {PL : PathLib}.
Variable h : Host.

(** The run of [build] when the script exists and COMSPEC is set: one
    subprocess, inside the [cd]; the outcome follows the exit code. *)
Lemma build_runs (s : State) (shell : string) :
  path_exists h VCVARS_BAT = true ->
  environ h !! "COMSPEC" = Some shell ->
  let dir := pstr (LUAJIT_DIR h) in
  let code := run_exit h dir (build_command shell) IN_STREAM in
  build h s
  = (if code =? 0 then Return tt else Raise (UnexpectedExit code),
     {| command_cwds := command_cwds s;
        log := log s ++ [EvExists AtVcvars VCVARS_BAT; EvCdEnter dir;
                         EvEnviron "COMSPEC";
                         EvRun dir (build_command shell) IN_STREAM;
                         EvCdExit] |}).
Proof.
  intros Hvc Hshell dir code. subst dir code.
  unfold build, build_command, bind, exists_, emit, ret; simpl. rewrite Hvc. simpl.
  unfold with_cd, environ_get, bind, emit, ret, run, cwd; simpl. rewrite Hshell.
  destruct (run_exit h _ _ _ =? 0); simpl; rewrite <- !app_assoc; reflexivity.
Qed.

(** The run when the script exists and COMSPEC is not set: the [KeyError]
    leaves through the [with], which pops the directory. *)
Lemma build_without_comspec (s : State) :
  path_exists h VCVARS_BAT = true ->
  environ h !! "COMSPEC" = None ->
  build h s
  = (Raise (KeyError "COMSPEC"),
     {| command_cwds := command_cwds s;
        log := log s ++ [EvExists AtVcvars VCVARS_BAT;
                         EvCdEnter (pstr (LUAJIT_DIR h));
                         EvEnviron "COMSPEC"; EvCdExit] |}).
Proof.
  intros Hvc Hshell.
  unfold build, bind, exists_, emit, ret; simpl. rewrite Hvc. simpl.
  unfold with_cd, environ_get, bind, emit, raise; simpl. rewrite Hshell.
  simpl. now rewrite <- !app_assoc.
Qed.

(** The run when the script does not exist. *)
Lemma build_without_vcvars (s : State) :
  path_exists h VCVARS_BAT = false ->
  build h s
  = (Raise (Exception "no vcvars64.bat"),
     {| command_cwds := command_cwds s;
        log := log s ++ [EvExists AtVcvars VCVARS_BAT] |}).
Proof.
  intros Hvc. unfold build, bind, exists_, emit, ret; simpl. now rewrite Hvc.
Qed.

(** C10: when the compiler-environment script exists and COMSPEC is not
    set, [build] raises [KeyError('COMSPEC')], an exception of none of the
    three kinds; the log holds the prerequisite check first, and what
    follows it spawns no subprocess. *)
Theorem build_comspec_unset (s : State) :
  path_exists h VCVARS_BAT = true ->
  environ h !! "COMSPEC" = None ->
  exists evs,
    build h s
    = (Raise (KeyError "COMSPEC"),
       {| command_cwds := command_cwds s;
          log := log s ++ EvExists AtVcvars VCVARS_BAT :: evs |})
    /\ spawned evs = 0%nat
    /\ kind_of (KeyError "COMSPEC") = None.
Proof.
  intros Hvc Hshell. rewrite (build_without_comspec s Hvc Hshell).
  exists [EvCdEnter (pstr (LUAJIT_DIR h)); EvEnviron "COMSPEC"; EvCdExit].
  repeat split.
Qed.

(** C7: when the compiler-environment script does not exist, [build] raises
    [Exception('no vcvars64.bat')], the Missing-Prerequisite error, having
    done nothing but the check: the whole run spawns no subprocess. *)
Theorem build_missing_prerequisite (s : State) :
  path_exists h VCVARS_BAT = false ->
  exists evs,
    build h s
    = (Raise (Exception "no vcvars64.bat"),
       {| command_cwds := command_cwds s; log := log s ++ evs |})
    /\ spawned evs = 0%nat
    /\ kind_of (Exception "no vcvars64.bat") = Some MissingPrerequisite.
Proof.
  intros Hvc. rewrite (build_without_vcvars s Hvc).
  exists [EvExists AtVcvars VCVARS_BAT]. repeat split.
Qed.


(** C1, as the code has it: every run of [build] starts with the
    compiler-environment-script check, so the check precedes the
    subprocess; after it the run spawns at most one subprocess, never reads
    PATH and never probes for [cmake.exe], on the search path or at the
    fallback: [build] does not perform the CMake lookup. *)
Theorem build_lookups (s : State) :
  exists evs,
    log (snd (build h s)) = log s ++ EvExists AtVcvars VCVARS_BAT :: evs
    /\ (spawned evs <= 1)%nat
    /\ reads_environ "PATH" evs = false
    /\ probed AtPathEntry evs = false
    /\ probed AtPathCmake evs = false
    /\ probed AtFallback evs = false.
Proof.
  destruct (path_exists h VCVARS_BAT) eqn:Hvc.
  - destruct (environ h !! "COMSPEC") as [shell|] eqn:Hshell.
    + rewrite (build_runs s shell Hvc Hshell). simpl.
      eexists. split; [reflexivity|]. simpl. repeat split; lia.
    + rewrite (build_without_comspec s Hvc Hshell). simpl.
      eexists. split; [reflexivity|]. simpl. repeat split; lia.
  - rewrite (build_without_vcvars s Hvc). simpl.
    exists []. simpl. repeat split; lia.
Qed.

End BuildFacts.

(** * The claims on the example hosts *)

(** C2, at a host where the script exists and COMSPEC is set: the one input
    stream [build] pipes to the command interpreter is the two expected
    lines followed by a single quote and a closing parenthesis, so it is
    not the two lines and nothing else. *)
Theorem build_in_stream_trailing_text :
  in_streams (log (snd (build host_dev fresh))) = [BUILD_THEN_EXIT +:+ "')"]
  /\ BUILD_THEN_EXIT +:+ "')" <> BUILD_THEN_EXIT.
Proof. split; [reflexivity | discriminate]. Qed.

(** C1 fails as stated: on [host_dev], where PATH is set and holds CMake,
    [build] spawns its subprocess and returns without having read PATH or
    probed for [cmake.exe] anywhere. *)
Lemma build_spawns_without_cmake_lookup :
  build host_dev fresh
  = (Return tt,
     {| command_cwds := [];
        log := [EvExists AtVcvars VCVARS;
                EvCdEnter "C:\work\luada\LuaJIT/src";
                EvEnviron "COMSPEC";
                EvRun "C:\work\luada\LuaJIT/src"
                  (CMD_EXE +:+ " /K " +:+ PyStr.quoted VCVARS)
                  (BUILD_THEN_EXIT +:+ "')");
                EvCdExit] |})
  /\ spawned (log (snd (build host_dev fresh))) = 1%nat
  /\ reads_environ "PATH" (log (snd (build host_dev fresh))) = false
  /\ probed AtPathEntry (log (snd (build host_dev fresh))) = false
  /\ probed AtPathCmake (log (snd (build host_dev fresh))) = false
  /\ probed AtFallback (log (snd (build host_dev fresh))) = false.
Proof. repeat split. Qed.

(** C3 fails as stated: an argument with a space in it is not quoted, and
    re-parses as two arguments. *)
Lemma commandline_reparse_splits_argument :
  commandline (PL := StrPath) "cmake" ["--build"; "C:\my build"]
  = "cmake --build C:\my build"
  /\ Reparse.reparse (commandline (PL := StrPath) "cmake" ["--build"; "C:\my build"])
     = Some ("cmake", ["--build"; "C:\my"; "build"])
  /\ Reparse.reparse (commandline (PL := StrPath) "cmake" ["--build"; "C:\my build"])
     <> Some ("cmake", ["--build"; "C:\my build"]).
Proof. repeat split. discriminate. Qed.

(** C3 at a path with a space and two plain arguments. *)
Lemma commandline_reparse_witness :
  Reparse.reparse
    (commandline (PL := StrPath) "C:\Program Files\CMake\bin\cmake.exe" ["--build"; "."])
  = Some ("C:\Program Files\CMake\bin\cmake.exe", ["--build"; "."]).
Proof.
  apply (commandline_reparse (PL := StrPath)
           "C:\Program Files\CMake\bin\cmake.exe" ["--build"; "."]).
  - discriminate.
  - reflexivity.
  - repeat constructor; discriminate.
Defined.


(** C5 on [host_dev], where the third and the fourth entry of PATH hold
    the tool. *)
Lemma get_cmake_first_on_path_witness :
  exists pre d post evs,
    PyStr.split SEMICOLON "C:\Windows;;C:\tools\bin;C:\more\bin" = pre ++ d :: post
    /\ Forall (fun e => holds_cmake host_dev e = false) pre
    /\ holds_cmake host_dev d = true
    /\ get_cmake host_dev fresh
       = (Return (pdiv (mkPath d) "cmake.exe"),
          {| command_cwds := []; log := [] ++ evs |})
    /\ probed AtFallback evs = false.
Proof.
  apply (get_cmake_first_on_path host_dev fresh "C:\Windows;;C:\tools\bin;C:\more\bin").
  - reflexivity.
  - reflexivity.
  - change (PyStr.split SEMICOLON "C:\Windows;;C:\tools\bin;C:\more\bin")
      with ["C:\Windows"; ""; "C:\tools\bin"; "C:\more\bin"].
    do 3 apply Exists_cons_tl. apply Exists_cons_hd. reflexivity.
Defined.


(** C7 on [host_bare]. *)
Lemma build_missing_prerequisite_witness :
  exists evs,
    build host_bare fresh
    = (Raise (Exception "no vcvars64.bat"),
       {| command_cwds := []; log := [] ++ evs |})
    /\ spawned evs = 0%nat
    /\ kind_of (Exception "no vcvars64.bat") = Some MissingPrerequisite.
Proof.
  apply (build_missing_prerequisite host_bare fresh). reflexivity.
Defined.

(** C8 on [host_linux], which has a [cmake.exe] on its PATH. *)
Lemma get_cmake_unsupported_platform_witness :
  get_cmake host_linux fresh = (Raise NotImplementedError, fresh)
  /\ forall evs, log (snd (get_cmake host_linux fresh)) = log fresh ++ evs ->
       touches_filesystem evs = false.
Proof.
  apply (get_cmake_unsupported_platform host_linux fresh). discriminate.
Defined.

(** C10 on [host_no_env]. *)
Lemma build_comspec_unset_witness :
  exists evs,
    build host_no_env fresh
    = (Raise (KeyError "COMSPEC"),
       {| command_cwds := [];
          log := [] ++ EvExists AtVcvars VCVARS_BAT :: evs |})
    /\ spawned evs = 0%nat
    /\ kind_of (KeyError "COMSPEC") = None.
Proof.
  apply (build_comspec_unset host_no_env fresh); reflexivity.
Defined.

(** * Further properties of [get_cmake] *)

Section LookupFacts.
Context {PL : PathLib}.
Variable h : Host.

Lemma truthy_nonempty (e : string) : PyStr.truthy e = true -> e <> "".
Proof. destruct e; [discriminate | congruence]. Qed.

Lemma scan_event_cons (e : string) (rest : list string) (ev : event) :
  scan_event h rest ev -> scan_event h (e :: rest) ev.
Proof.
  destruct ev as [|[] p| | |]; simpl; try tauto.
  - intros (e' & Hin & Hrest). exists e'. auto.
  - intros (e' & Hin & Hrest). exists e'. auto.
Qed.

Lemma scan_answer_cons (e : string) (rest : list string) (r : outcome (option Path)) :
  holds_cmake h e = false -> scan_answer h rest r -> scan_answer h (e :: rest) r.
Proof.
  intros He. destruct r as [[c|]|]; simpl; auto.
  intros (e' & Hin & Hrest). exists e'. auto.
Qed.

(** The whole of a scan: it never raises, leaves the directory stack alone,
    adds only scan events, and answers truthfully. *)
Lemma scan_path_spec (entries : list string) :
  forall s, exists evs,
    snd (scan_path h entries s)
    = {| command_cwds := command_cwds s; log := log s ++ evs |}
    /\ Forall (scan_event h entries) evs
    /\ scan_answer h entries (fst (scan_path h entries s)).
Proof.
  induction entries as [|e rest IH]; intros s.
  - exists []. simpl. split; [apply state_eta|]. split; constructor.
  - simpl scan_path. destruct (PyStr.truthy e) eqn:Htruthy.
    + pose proof (truthy_nonempty e Htruthy) as Hne.
      unfold bind, exists_, emit, ret; simpl.
      destruct (path_exists h (mkPath e)) eqn:Hdir; simpl.
      * destruct (path_exists h (pdiv (mkPath e) "cmake.exe")) eqn:Hcmake; simpl.
        -- exists [EvExists AtPathEntry (mkPath e);
                   EvExists AtPathCmake (pdiv (mkPath e) "cmake.exe")].
           rewrite log_snoc_app. split; [reflexivity|]. split.
           ++ repeat constructor; exists e; simpl; auto.
           ++ exists e. unfold holds_cmake. rewrite Htruthy, Hdir, Hcmake. simpl. auto.
        -- destruct (IH {| command_cwds := command_cwds s;
                           log := (log s ++ [EvExists AtPathEntry (mkPath e)])
                                  ++ [EvExists AtPathCmake (pdiv (mkPath e) "cmake.exe")] |})
             as (evs & Hs & Hevs & Hans).
           exists (EvExists AtPathEntry (mkPath e)
                   :: EvExists AtPathCmake (pdiv (mkPath e) "cmake.exe") :: evs).
           rewrite Hs. simpl. rewrite log_snoc_app, log_snoc_app.
           split; [reflexivity|]. split.
           ++ constructor; [exists e; simpl; auto|].
              constructor; [exists e; simpl; auto|].
              eapply Forall_impl; [exact Hevs | apply scan_event_cons].
           ++ apply scan_answer_cons; [|exact Hans].
              unfold holds_cmake. now rewrite Htruthy, Hdir, Hcmake.
      * destruct (IH {| command_cwds := command_cwds s;
                        log := log s ++ [EvExists AtPathEntry (mkPath e)] |})
          as (evs & Hs & Hevs & Hans).
        exists (EvExists AtPathEntry (mkPath e) :: evs).
        rewrite Hs. simpl. rewrite log_snoc_app.
        split; [reflexivity|]. split.
        -- constructor; [exists e; simpl; auto|].
           eapply Forall_impl; [exact Hevs | apply scan_event_cons].
        -- apply scan_answer_cons; [|exact Hans].
           unfold holds_cmake. now rewrite Htruthy, Hdir.
    + destruct (IH s) as (evs & Hs & Hevs & Hans).
      exists evs. split; [exact Hs|]. split.
      * eapply Forall_impl; [exact Hevs | apply scan_event_cons].
      * apply scan_answer_cons; [|exact Hans].
        unfold holds_cmake. now rewrite Htruthy.
Qed.

(** [get_cmake] on Windows with PATH set, as the scan of the entries
    followed by the fallback. *)
Lemma get_cmake_windows (s : State) (path : string) :
  platform_system h = "Windows" ->
  environ h !! "PATH" = Some path ->
  get_cmake h s
  = match scan_path h (PyStr.split SEMICOLON path)
            {| command_cwds := command_cwds s; log := log s ++ [EvEnviron "PATH"] |}
    with
    | (Return (Some cmake), s') => (Return cmake, s')
    | (Return None, s') =>
        (if path_exists h CMAKE_FALLBACK then Return CMAKE_FALLBACK
         else Raise (FileNotFoundError "cmake.exe"),
         {| command_cwds := command_cwds s';
            log := log s' ++ [EvExists AtFallback CMAKE_FALLBACK] |})
    | (Raise e, s') => (Raise e, s')
    end.
Proof.
  intros Hwin Hpath. unfold get_cmake. rewrite decide_True by assumption.
  unfold bind at 1. unfold environ_get, bind, emit; simpl. rewrite Hpath. unfold ret at 1.
  destruct (scan_path h (PyStr.split SEMICOLON path) _) as [[[c|]|e] s'];
    try reflexivity.
  unfold exists_, bind, emit, ret, raise; simpl.
  now destruct (path_exists h CMAKE_FALLBACK).
Qed.

End LookupFacts.

Section LookupTheorems.
Context {PL : PathLib}.
Variable h : Host.

Lemma scan_event_lookup (path : string) (ev : event) :
  environ h !! "PATH" = Some path ->
  scan_event h (PyStr.split SEMICOLON path) ev ->
  lookup_event h ev.
Proof.
  intros Hpath. destruct ev as [|[] p| | |]; simpl; try tauto; eauto.
Qed.

Lemma lookup_events_spawn_nothing (evs : list event) :
  Forall (lookup_event h) evs -> spawned evs = 0%nat.
Proof.
  induction 1 as [|ev evs Hev _ IH]; [reflexivity|].
  destruct ev; simpl in *; auto; contradiction.
Qed.

(** A scan of empty entries does nothing. *)
Lemma scan_path_blank (entries : list string) (s : State) :
  Forall (fun e => e = "") entries ->
  scan_path h entries s = (Return None, s).
Proof.
  induction 1 as [|e rest -> _ IH]; [reflexivity | exact IH].
Qed.

(** The scan stops at the first entry that holds the tool: what follows it
    in PATH plays no part. *)
Lemma scan_path_stops (pre : list string) (d : string) (post : list string) :
  Forall (fun e => holds_cmake h e = false) pre ->
  holds_cmake h d = true ->
  forall s, scan_path h (pre ++ d :: post) s = scan_path h (pre ++ [d]) s.
Proof.
  intros Hpre Hd. induction Hpre as [|e rest Hmiss _ IH]; intros s.
  - unfold holds_cmake in Hd.
    apply andb_true_iff in Hd as [Hd Hcmake]. apply andb_true_iff in Hd as [Htruthy Hdir].
    simpl. rewrite Htruthy. unfold bind, exists_, emit, ret; simpl.
    rewrite Hdir. simpl. now rewrite Hcmake.
  - unfold holds_cmake in Hmiss. simpl.
    destruct (PyStr.truthy e); [|apply IH].
    unfold bind, exists_, emit, ret; simpl.
    destruct (path_exists h (mkPath e)); simpl; [|apply IH].
    simpl in Hmiss. rewrite Hmiss. apply IH.
Qed.

(** X1: on Windows with PATH unset, [get_cmake] raises [KeyError('PATH')],
    an exception of none of the three kinds, whatever the file system
    holds: the run makes no [.exists()] call, so an installed fallback is
    not found either. *)
Theorem get_cmake_needs_path (s : State) :
  platform_system h = "Windows" ->
  environ h !! "PATH" = None ->
  exists evs,
    get_cmake h s
    = (Raise (KeyError "PATH"),
       {| command_cwds := command_cwds s; log := log s ++ evs |})
    /\ touches_filesystem evs = false
    /\ kind_of (KeyError "PATH") = None.
Proof.
  intros Hwin Hpath. rewrite (get_cmake_path_unset h s Hwin Hpath).
  exists [EvEnviron "PATH"]. repeat split.
Qed.

(** X2: on Windows, when PATH is set, none of its entries holds the tool and
    the fallback installation path exists, [get_cmake] returns the fallback
    path; the probe of the fallback is the last event of the run and the
    only one at that place. *)
Theorem get_cmake_falls_back (s : State) (path : string) :
  platform_system h = "Windows" ->
  environ h !! "PATH" = Some path ->
  Forall (fun e => holds_cmake h e = false) (PyStr.split SEMICOLON path) ->
  path_exists h CMAKE_FALLBACK = true ->
  exists evs,
    get_cmake h s
    = (Return CMAKE_FALLBACK,
       {| command_cwds := command_cwds s;
          log := log s ++ evs ++ [EvExists AtFallback CMAKE_FALLBACK] |})
    /\ probed AtFallback evs = false.
Proof.
  intros Hwin Hpath Hnone Hfallback.
  rewrite (get_cmake_windows h s path Hwin Hpath).
  destruct (scan_path_miss h _ Hnone
              {| command_cwds := command_cwds s; log := log s ++ [EvEnviron "PATH"] |})
    as (evs & -> & Hno).
  rewrite Hfallback. exists (EvEnviron "PATH" :: evs). simpl.
  split; [|exact Hno]. now rewrite log_snoc_app, <- app_assoc.
Qed.

(** X3: a path [get_cmake] returns exists.  It is returned on Windows only,
    and it is the fallback path or the [cmake.exe] of an entry of PATH that
    holds the tool. *)
Theorem get_cmake_returns_existing (s : State) (p : Path) :
  fst (get_cmake h s) = Return p ->
  platform_system h = "Windows"
  /\ path_exists h p = true
  /\ (p = CMAKE_FALLBACK
      \/ exists path e,
           environ h !! "PATH" = Some path
           /\ In e (PyStr.split SEMICOLON path)
           /\ holds_cmake h e = true
           /\ p = pdiv (mkPath e) "cmake.exe").
Proof.
  intros Hret.
  destruct (decide (platform_system h = "Windows")) as [Hwin|Hother].
  2:{ unfold get_cmake in Hret. rewrite decide_False in Hret by assumption.
      discriminate Hret. }
  split; [exact Hwin|].
  destruct (environ h !! "PATH") as [path|] eqn:Hpath.
  2:{ rewrite (get_cmake_path_unset h s Hwin Hpath) in Hret. discriminate Hret. }
  rewrite (get_cmake_windows h s path Hwin Hpath) in Hret.
  destruct (scan_path_spec h (PyStr.split SEMICOLON path)
              {| command_cwds := command_cwds s; log := log s ++ [EvEnviron "PATH"] |})
    as (evs & _ & _ & Hans).
  destruct (scan_path h (PyStr.split SEMICOLON path) _) as [[[c|]|e] s'];
    simpl in Hans, Hret.
  - injection Hret as ->. destruct Hans as (e & Hin & Hholds & ->).
    split.
    + unfold holds_cmake in Hholds. now apply andb_true_iff in Hholds as [_ ?].
    + right. exists path, e. auto.
  - destruct (path_exists h CMAKE_FALLBACK) eqn:Hfallback; [|discriminate Hret].
    injection Hret as <-. auto.
  - contradiction.
Qed.


(** X5: [get_cmake] only looks: every run leaves the directory stack of the
    invoke context as it was, spawns no subprocess, and adds to the log only
    the read of PATH, probes of directories that non-empty entries of PATH
    name, probes of [cmake.exe] in such directories that exist, and the
    probe of the fallback path. *)
Theorem get_cmake_only_looks (s : State) :
  exists evs,
    snd (get_cmake h s)
    = {| command_cwds := command_cwds s; log := log s ++ evs |}
    /\ Forall (lookup_event h) evs
    /\ spawned evs = 0%nat.
Proof.
  assert (exists evs,
             snd (get_cmake h s)
             = {| command_cwds := command_cwds s; log := log s ++ evs |}
             /\ Forall (lookup_event h) evs) as (evs & Hs & Hevs).
  { destruct (decide (platform_system h = "Windows")) as [Hwin|Hother].
    2:{ exists []. unfold get_cmake. rewrite decide_False by assumption.
        simpl. split; [apply state_eta | constructor]. }
    destruct (environ h !! "PATH") as [path|] eqn:Hpath.
    2:{ exists [EvEnviron "PATH"]. rewrite (get_cmake_path_unset h s Hwin Hpath).
        split; [reflexivity | repeat constructor]. }
    rewrite (get_cmake_windows h s path Hwin Hpath).
    destruct (scan_path_spec h (PyStr.split SEMICOLON path)
                {| command_cwds := command_cwds s; log := log s ++ [EvEnviron "PATH"] |})
      as (evs & Hs & Hevs & Hans).
    assert (Forall (lookup_event h) evs) as Hlook.
    { eapply Forall_impl; [exact Hevs|]. intros ev. now apply scan_event_lookup. }
    destruct (scan_path h (PyStr.split SEMICOLON path) _) as [[[c|]|e'] s'];
      simpl in Hs, Hans; subst s'; simpl.
    - exists (EvEnviron "PATH" :: evs). rewrite log_snoc_app.
      split; [reflexivity|]. constructor; [reflexivity | exact Hlook].
    - exists (EvEnviron "PATH" :: evs ++ [EvExists AtFallback CMAKE_FALLBACK]).
      rewrite log_snoc_app, <- app_assoc. split; [reflexivity|].
      constructor; [reflexivity|]. apply Forall_app. split; [exact Hlook|].
      repeat constructor.
    - contradiction. }
  exists evs. split; [exact Hs|]. split; [exact Hevs|].
  now apply lookup_events_spawn_nothing.
Qed.

(** X6: on Windows, when PATH is set and every entry of it is empty (PATH
    is the empty string or separators only), [get_cmake] probes no entry:
    it reads PATH, probes the fallback path and answers by that alone. *)
Theorem get_cmake_blank_path (s : State) (path : string) :
  platform_system h = "Windows" ->
  environ h !! "PATH" = Some path ->
  Forall (fun e => e = "") (PyStr.split SEMICOLON path) ->
  get_cmake h s
  = (if path_exists h CMAKE_FALLBACK then Return CMAKE_FALLBACK
     else Raise (FileNotFoundError "cmake.exe"),
     {| command_cwds := command_cwds s;
        log := log s ++ [EvEnviron "PATH"; EvExists AtFallback CMAKE_FALLBACK] |}).
Proof.
  intros Hwin Hpath Hblank.
  rewrite (get_cmake_windows h s path Hwin Hpath).
  rewrite (scan_path_blank _ _ Hblank). simpl. now rewrite log_snoc_app.
Qed.

(** X7: on Windows, when the entries of PATH split as [pre ++ d :: post]
    with [d] the first that holds the tool, every probe of the run concerns
    an entry of [pre ++ [d]]: nothing is probed for the entries after the
    first hit. *)
Theorem get_cmake_stops_at_first
    (s : State) (path : string) (pre : list string) (d : string) (post : list string) :
  platform_system h = "Windows" ->
  environ h !! "PATH" = Some path ->
  PyStr.split SEMICOLON path = pre ++ d :: post ->
  Forall (fun e => holds_cmake h e = false) pre ->
  holds_cmake h d = true ->
  exists evs,
    snd (get_cmake h s)
    = {| command_cwds := command_cwds s;
         log := log s ++ EvEnviron "PATH" :: evs |}
    /\ Forall (scan_event h (pre ++ [d])) evs.
Proof.
  intros Hwin Hpath Hsplit Hpre Hd.
  rewrite (get_cmake_windows h s path Hwin Hpath), Hsplit.
  rewrite (scan_path_stops pre d post Hpre Hd).
  destruct (scan_path_spec h (pre ++ [d])
              {| command_cwds := command_cwds s; log := log s ++ [EvEnviron "PATH"] |})
    as (evs & Hs & Hevs & Hans).
  destruct (scan_path h (pre ++ [d]) _) as [[[c|]|e'] s'];
    simpl in Hs, Hans; subst s'.
  - exists evs. simpl. now rewrite log_snoc_app.
  - exfalso. apply Forall_app in Hans as [_ Hlast].
    inversion Hlast as [|? ? Hd' _]; subst. congruence.
  - contradiction.
Qed.

End LookupTheorems.

(** * Further properties of [build] and [commandline] *)

Section BuildTheorems.
Context {PL : PathLib}.


(** X9: what [build] does depends on four things only: whether the
    compiler-environment script exists, the value of COMSPEC, the directory
    of the script and the exit codes of commands.  Two hosts that agree on
    these run [build] alike, whatever their platform, their PATH and the rest
    of their file systems: [build] has no platform guard. *)
Theorem build_depends_on (h h' : Host) (s : State) :
  path_exists h VCVARS_BAT = path_exists h' VCVARS_BAT ->
  environ h !! "COMSPEC" = environ h' !! "COMSPEC" ->
  HERE h = HERE h' ->
  (forall dir command input, run_exit h dir command input = run_exit h' dir command input) ->
  build h s = build h' s.
Proof.
  intros Hvc Hshell Hhere Hexit.
  assert (LUAJIT_DIR h = LUAJIT_DIR h') as Hdir by (unfold LUAJIT_DIR; now rewrite Hhere).
  destruct (path_exists h VCVARS_BAT) eqn:Hvc1; symmetry in Hvc.
  - destruct (environ h !! "COMSPEC") as [shell|] eqn:Hshell1; symmetry in Hshell.
    + rewrite (build_runs h s shell Hvc1 Hshell1), (build_runs h' s shell Hvc Hshell).
      simpl. now rewrite Hdir, Hexit.
    + rewrite (build_without_comspec h s Hvc1 Hshell1),
        (build_without_comspec h' s Hvc Hshell).
      now rewrite Hdir.
  - now rewrite (build_without_vcvars h s Hvc1), (build_without_vcvars h' s Hvc).
Qed.

Lemma str_app_inv_tail (s s' t : string) : s +:+ t = s' +:+ t -> s = s'.
Proof.
  revert s'. induction s as [|c s IH]; intros [|c' s'] Heq.
  - reflexivity.
  - apply (f_equal String.length) in Heq.
    rewrite !str_length_app in Heq. simpl in Heq. lia.
  - apply (f_equal String.length) in Heq.
    rewrite !str_length_app in Heq. simpl in Heq. lia.
  - rewrite !str_app_cons in Heq. injection Heq as -> Heq. f_equal. now apply IH.
Qed.

Lemma contains_app (c : ascii) (s t : string) :
  PyStr.contains c (s +:+ t) = PyStr.contains c s || PyStr.contains c t.
Proof.
  induction s as [|a s IH]; [reflexivity|].
  rewrite str_app_cons. simpl. now destruct (decide (a = c)).
Qed.

Lemma contains_space_quoted (s : string) :
  PyStr.contains SPACE (PyStr.quoted s) = PyStr.contains SPACE s.
Proof.
  unfold PyStr.quoted. rewrite contains_app.
  change (PyStr.contains SPACE (String DQUOTE s)) with (PyStr.contains SPACE s).
  change (PyStr.contains SPACE (String DQUOTE "")) with false.
  apply orb_false_r.
Qed.

(** The first word of a command line, quoted or bare, tells the path. *)
Lemma command_word_inj (s s' : string) :
  (if PyStr.contains SPACE s then PyStr.quoted s else s)
  = (if PyStr.contains SPACE s' then PyStr.quoted s' else s') ->
  s = s'.
Proof.
  destruct (PyStr.contains SPACE s) eqn:Hs, (PyStr.contains SPACE s') eqn:Hs';
    intros Heq.
  - unfold PyStr.quoted in Heq. rewrite !str_app_cons in Heq.
    injection Heq as Heq. now apply str_app_inv_tail in Heq.
  - exfalso. rewrite <- Heq, contains_space_quoted in Hs'. congruence.
  - exfalso. rewrite Heq, contains_space_quoted in Hs. congruence.
  - exact Heq.
Qed.

(** X10: for the same arguments, two executable paths with different
    strings never compose to the same command line: the quoting decision
    cannot make one path look like another. *)
Theorem commandline_tells_exe (exe exe' : Path) (args : list string) :
  pstr exe <> pstr exe' ->
  commandline exe args <> commandline exe' args.
Proof.
  intros Hne Heq. apply Hne. unfold commandline in Heq.
  rewrite <- !str_app_assoc in Heq.
  apply str_app_inv_tail in Heq. apply str_app_inv_tail in Heq.
  exact (command_word_inj _ _ Heq).
Qed.

End BuildTheorems.

(** * The further properties on the example hosts *)

(** X1 on [host_no_env]. *)
Lemma get_cmake_needs_path_witness :
  exists evs,
    get_cmake host_no_env fresh
    = (Raise (KeyError "PATH"), {| command_cwds := []; log := [] ++ evs |})
    /\ touches_filesystem evs = false
    /\ kind_of (KeyError "PATH") = None.
Proof.
  apply (get_cmake_needs_path host_no_env fresh); reflexivity.
Defined.

(** X2 on [host_fallback]. *)
Lemma get_cmake_falls_back_witness :
  exists evs,
    get_cmake host_fallback fresh
    = (Return "C:/Program Files/CMake/bin/cmake.exe",
       {| command_cwds := [];
          log := [] ++ evs ++ [EvExists AtFallback CMAKE_FALLBACK] |})
    /\ probed AtFallback evs = false.
Proof.
  apply (get_cmake_falls_back host_fallback fresh "C:\Windows;C:\gone").
  - reflexivity.
  - reflexivity.
  - repeat constructor.
  - reflexivity.
Defined.

(** X3 on [host_dev]. *)
Lemma get_cmake_returns_existing_witness :
  platform_system host_dev = "Windows"
  /\ path_exists host_dev "C:\tools\bin\cmake.exe" = true
  /\ ("C:\tools\bin\cmake.exe" = CMAKE_FALLBACK (PL := StrPath)
      \/ exists path e,
           environ host_dev !! "PATH" = Some path
           /\ In e (PyStr.split SEMICOLON path)
           /\ holds_cmake host_dev e = true
           /\ "C:\tools\bin\cmake.exe" = pdiv (mkPath e) "cmake.exe").
Proof.
  apply (get_cmake_returns_existing host_dev fresh "C:\tools\bin\cmake.exe").
  reflexivity.
Defined.


(** X6 on [host_blank_path], whose PATH is two separators: the directory
    the empty path would name holds a [cmake.exe], and it is not found. *)
Lemma get_cmake_blank_path_witness :
  get_cmake host_blank_path fresh
  = (Raise (FileNotFoundError "cmake.exe"),
     {| command_cwds := [];
        log := [EvEnviron "PATH"; EvExists AtFallback CMAKE_FALLBACK] |}).
Proof.
  apply (get_cmake_blank_path host_blank_path fresh ";;").
  - reflexivity.
  - reflexivity.
  - repeat constructor.
Defined.

(** X7 on [host_dev]: nothing is probed for [C:\more\bin]. *)
Lemma get_cmake_stops_at_first_witness :
  exists evs,
    snd (get_cmake host_dev fresh)
    = {| command_cwds := []; log := [] ++ EvEnviron "PATH" :: evs |}
    /\ Forall (scan_event host_dev (["C:\Windows"; ""] ++ ["C:\tools\bin"])) evs.
Proof.
  apply (get_cmake_stops_at_first host_dev fresh
           "C:\Windows;;C:\tools\bin;C:\more\bin"
           ["C:\Windows"; ""] "C:\tools\bin" ["C:\more\bin"]).
  - reflexivity.
  - reflexivity.
  - reflexivity.
  - repeat constructor.
  - reflexivity.
Defined.


(** X9 on [host_dev] and [host_dev_elsewhere]: another platform name and
    another PATH, the same run. *)
Lemma build_depends_on_witness :
  build host_dev fresh = build host_dev_elsewhere fresh.
Proof.
  apply (build_depends_on host_dev host_dev_elsewhere fresh); reflexivity.
Defined.

(** X10 at a bare and a quoted path. *)
Lemma commandline_tells_exe_witness :
  commandline (PL := StrPath) "cmake" ["--version"]
  <> commandline (PL := StrPath) "C:\Program Files\CMake\bin\cmake.exe" ["--version"].
Proof.
  apply (commandline_tells_exe (PL := StrPath)
           "cmake" "C:\Program Files\CMake\bin\cmake.exe" ["--version"]).
  discriminate.
Defined.

(** * Command lines and their words *)

Section CommandWords.
Context {PL : PathLib}.
Import Reparse.

(** X11: whatever the arguments are, the executable path comes back from
    the re-parse when its string is not empty and holds no double quote and
    no whitespace other than spaces; the arguments come back as the words of
    their join. *)
Theorem commandline_reparse_exe (exe : Path) (args : list string) :
  pstr exe <> "" ->
  all_chars exe_char (pstr exe) = true ->
  reparse (commandline exe args)
  = Some (pstr exe, words Between (PyStr.join " " args)).
Proof.
  intros Hne Hexe. unfold reparse, commandline.
  destruct (PyStr.contains SPACE (pstr exe)) eqn:Hspace.
  - rewrite quoted_app, words_quote_opens.
    rewrite words_in_quotes by now apply exe_chars_unquoted.
    change ("" +:+ pstr exe) with (pstr exe).
    now rewrite words_space_skipped.
  - rewrite words_bare by auto using exe_chars_plain.
    now rewrite words_space_ends.
Qed.

(** X12: the command line [build] hands to [c.run] re-parses into three
    words, the shell, [/K] and the script path, when the value of COMSPEC is
    not empty and holds neither whitespace nor a double quote and the script
    path holds no double quote: the quotes [build] always puts around the
    script path keep its spaces in one word. *)
Theorem build_command_words (shell : string) :
  shell <> "" ->
  all_chars plain_char shell = true ->
  PyStr.contains DQUOTE (pstr VCVARS_BAT) = false ->
  reparse (build_command shell) = Some (shell, ["/K"; pstr VCVARS_BAT]).
Proof.
  intros Hne Hshell Hvc. unfold reparse, build_command.
  rewrite words_bare by assumption.
  change (" /K " +:+ PyStr.quoted (pstr VCVARS_BAT))
    with (" " +:+ "/K" +:+ " " +:+ PyStr.quoted (pstr VCVARS_BAT)).
  rewrite words_space_ends.
  rewrite words_bare by (reflexivity || discriminate).
  rewrite words_space_ends.
  rewrite <- (str_app_nil_r (PyStr.quoted (pstr VCVARS_BAT))).
  rewrite quoted_app, words_quote_opens, words_in_quotes by assumption.
  reflexivity.
Qed.

End CommandWords.

(** X11 at a bare path and an argument with a space, which comes back as
    two words. *)
Lemma commandline_reparse_exe_witness :
  Reparse.reparse (commandline (PL := StrPath) "cmake" ["--build"; "C:\my build"])
  = Some ("cmake", Reparse.words Reparse.Between (PyStr.join " " ["--build"; "C:\my build"])).
Proof.
  apply (commandline_reparse_exe (PL := StrPath) "cmake" ["--build"; "C:\my build"]).
  - discriminate.
  - reflexivity.
Defined.

(** X12 at the usual command interpreter. *)
Lemma build_command_words_witness :
  Reparse.reparse (build_command (PL := StrPath) CMD_EXE)
  = Some (CMD_EXE, ["/K"; VCVARS]).
Proof.
  apply (build_command_words (PL := StrPath) CMD_EXE).
  - discriminate.
  - reflexivity.
  - reflexivity.
Defined.
